(** * GenerationConfig: population, queries and validation

    A shallow embedding of [src/cpp/src/generation_config.cpp]
    (namespace [ov::genai]) together with the properties that the
    decoding engine relies on.

    - [size_t] values are integers in [[0, 2^w)]; the only arithmetic
      the file performs on them, the subtraction of
      [get_max_new_tokens], has its wrap-around written out.
    - [float] values are IEEE-754 binary32 numbers, represented with
      the Standard Library's [spec_float]; comparisons are [SFltb] and
      [SFleb], so a NaN fails every comparison as it does in C++.
    - [OPENVINO_ASSERT] throws; [validate] therefore returns a [result].
    - The constructor and [update_generation_config] assign members one
      after the other and may throw half-way: they are computations in
      a state-and-error monad over the object under construction. *)

From Stdlib Require Import ZArith Lia Bool List.
From Stdlib Require Import Floats.SpecFloat.
From stdpp Require Import base option gmap strings.

#[local] Set Warnings "-register-all".
#[local] Open Scope string_scope.
#[local] Open Scope Z_scope.

(** ** Machine types *)

Section Width.

(** Width of [size_t] in bits. *)
Variable w : positive.

Definition SIZE_MAX : Z := 2 ^ Z.pos w - 1.

Definition in_size_t (z : Z) : Prop := 0 <= z <= SIZE_MAX.

(** [a - b] on [size_t]. *)
Definition size_sub (a b : Z) : Z := (a - b) mod 2 ^ Z.pos w.

End Width.

Definition in_int64 (z : Z) : Prop := - 2 ^ 63 <= z < 2 ^ 63.

(** C++ [float]. *)
Definition float : Type := spec_float.

Definition is_float (x : float) : Prop := valid_binary 24 128 x = true.

(** The literals [0] (converted to [float]) and [1.0f]. *)
Definition float_zero : float := S754_zero false.
Definition float_one : float := S754_finite false 8388608 (-23).

(** [a > b] and [a <= b] on [float]. *)
Definition float_gt (a b : float) : bool := SFltb b a.
Definition float_le (a b : float) : bool := SFleb a b.

(** ** The configuration object *)

Inductive StopCriteria : Type := EARLY | HEURISTIC | NEVER.

Record GenerationConfig : Type := {
  max_new_tokens : Z;
  max_length : Z;
  ignore_eos : bool;
  num_beam_groups : Z;
  num_beams : Z;
  diversity_penalty : float;
  length_penalty : float;
  num_return_sequences : Z;
  no_repeat_ngram_size : Z;
  stop_criteria : StopCriteria;
  temperature : float;
  top_p : float;
  top_k : Z;
  do_sample : bool;
  repetition_penalty : float;
  eos_token_id : Z
}.

(** Every member holds a value of its C++ type. *)
Record wf_config (w : positive) (c : GenerationConfig) : Prop := {
  wf_max_new_tokens : in_size_t w (max_new_tokens c);
  wf_max_length : in_size_t w (max_length c);
  wf_num_beam_groups : in_size_t w (num_beam_groups c);
  wf_num_beams : in_size_t w (num_beams c);
  wf_diversity_penalty : is_float (diversity_penalty c);
  wf_length_penalty : is_float (length_penalty c);
  wf_num_return_sequences : in_size_t w (num_return_sequences c);
  wf_no_repeat_ngram_size : in_size_t w (no_repeat_ngram_size c);
  wf_temperature : is_float (temperature c);
  wf_top_p : is_float (top_p c);
  wf_top_k : in_size_t w (top_k c);
  wf_repetition_penalty : is_float (repetition_penalty c);
  wf_eos_token_id : in_int64 (eos_token_id c)
}.

(** ** Exceptions *)

(** A value streamed into the text of an assertion. *)
Inductive streamed : Type :=
| of_size_t (z : Z)
| of_float (x : float).

Inductive Exception : Type :=
| AssertFailure (explanation : string) (args : list streamed)
| TypeMismatch (name : string).

Inductive result (A : Type) : Type :=
| OK (a : A)
| Throw (e : Exception).
Arguments OK {A} a.
Arguments Throw {A} e.

Definition is_ok {A : Type} (r : result A) : bool :=
  match r with OK _ => true | Throw _ => false end.

#[global] Instance result_ret : MRet result := fun _ a => OK a.
#[global] Instance result_bind : MBind result := fun _ _ f r =>
  match r with OK a => f a | Throw e => Throw e end.
#[global] Instance result_fmap : FMap result := fun _ _ f r =>
  match r with OK a => OK (f a) | Throw e => Throw e end.

Definition OPENVINO_ASSERT (cond : bool) (explanation : string)
    (args : list streamed) : result unit :=
  if cond then OK tt else Throw (AssertFailure explanation args).

(** ** Derived-budget and mode queries *)

Section Queries.

Variable w : positive.

Definition get_max_new_tokens (c : GenerationConfig) (prompt_length : Z) : Z :=
  if negb (max_new_tokens c =? SIZE_MAX w) then max_new_tokens c
  else size_sub w (max_length c) prompt_length.

Definition is_beam_search (c : GenerationConfig) : bool :=
  1 <? num_beams c.

Definition is_greedy_decoding (c : GenerationConfig) : bool :=
  negb (do_sample c) && negb (is_beam_search c).

Definition is_multinomial (c : GenerationConfig) : bool :=
  do_sample c.

(** ** Validation *)

Definition beam_sampling_text : string :=
  "Beam search with sampling is not supported yet. Please either set do_sample=false to use beam search or set num_beams=1 if you with to use multinomial sampling.".
Definition max_new_tokens_text : string :=
  "'max_new_tokens' must be greater than 0".
Definition max_length_text : string :=
  "'max_length' must be greater than 0 or 'max_new_tokens' should be defined".
Definition top_k_text : string :=
  "top_k must be a strictly positive, but got ".
Definition top_p_text : string :=
  "top_p must be a positive float > 0 and < 1, but got ".
Definition temperature_text : string :=
  "Temperature must be a strictly positive float, but got ".
Definition repetition_penalty_text : string :=
  "Repetition penalty must be a strictly positive float, but got ".
Definition ignore_eos_text : string :=
  "ignore_eos == true, in this case either 'max_new_tokens', or 'max_length' should be defined.".
Definition eos_token_id_text : string :=
  "Either 'eos_token_id', or 'max_new_tokens', or 'max_length' should be defined.".

Definition validate (c : GenerationConfig) : result unit :=
  OPENVINO_ASSERT (negb (do_sample c) || (num_beams c =? 1))
    beam_sampling_text [] ;;
  OPENVINO_ASSERT (0 <? max_new_tokens c)
    max_new_tokens_text [] ;;
  OPENVINO_ASSERT (negb (max_new_tokens c =? SIZE_MAX w) || (0 <? max_length c))
    max_length_text [] ;;
  OPENVINO_ASSERT (negb (do_sample c) || (0 <? top_k c))
    top_k_text [of_size_t (top_k c)] ;;
  OPENVINO_ASSERT (negb (do_sample c)
                   || (float_gt (top_p c) float_zero && float_le (top_p c) float_one))
    top_p_text [of_float (top_p c)] ;;
  OPENVINO_ASSERT (negb (do_sample c) || float_gt (temperature c) float_zero)
    temperature_text [of_float (temperature c)] ;;
  OPENVINO_ASSERT (float_gt (repetition_penalty c) float_zero)
    repetition_penalty_text [of_float (repetition_penalty c)] ;;
  OPENVINO_ASSERT (negb (ignore_eos c)
                   || negb (max_new_tokens c =? SIZE_MAX w)
                   || negb (max_length c =? SIZE_MAX w))
    ignore_eos_text [] ;;
  OPENVINO_ASSERT (negb (eos_token_id c =? -1)
                   || negb (max_new_tokens c =? SIZE_MAX w)
                   || negb (max_length c =? SIZE_MAX w))
    eos_token_id_text [].

End Queries.

(** ** Members by reference

    [read_json_param] and [read_anymap_param] receive the member they
    may assign as a [T&].  A [member] names one of the sixteen data
    members; [get] and [set] read and assign it. *)

Inductive member : Type :=
| m_max_new_tokens | m_max_length | m_ignore_eos | m_num_beam_groups
| m_num_beams | m_diversity_penalty | m_length_penalty
| m_num_return_sequences | m_no_repeat_ngram_size | m_stop_criteria
| m_temperature | m_top_p | m_top_k | m_do_sample
| m_repetition_penalty | m_eos_token_id.

#[global] Instance member_eq_dec : EqDecision member.
Proof. solve_decision. Defined.

(** The C++ types of the members, by which the templates
    [read_json_param] and [read_anymap_param] are instantiated. *)
Inductive ctype : Type := t_size_t | t_int64_t | t_bool | t_float | t_StopCriteria.

Definition denote (t : ctype) : Type :=
  match t with
  | t_size_t | t_int64_t => Z
  | t_bool => bool
  | t_float => float
  | t_StopCriteria => StopCriteria
  end.

Definition member_ctype (m : member) : ctype :=
  match m with
  | m_max_new_tokens | m_max_length | m_num_beam_groups | m_num_beams
  | m_num_return_sequences | m_no_repeat_ngram_size | m_top_k => t_size_t
  | m_eos_token_id => t_int64_t
  | m_ignore_eos | m_do_sample => t_bool
  | m_diversity_penalty | m_length_penalty | m_temperature | m_top_p
  | m_repetition_penalty => t_float
  | m_stop_criteria => t_StopCriteria
  end.

Definition member_type (m : member) : Type := denote (member_ctype m).

Definition get (m : member) : GenerationConfig -> member_type m :=
  match m with
  | m_max_new_tokens => max_new_tokens
  | m_max_length => max_length
  | m_ignore_eos => ignore_eos
  | m_num_beam_groups => num_beam_groups
  | m_num_beams => num_beams
  | m_diversity_penalty => diversity_penalty
  | m_length_penalty => length_penalty
  | m_num_return_sequences => num_return_sequences
  | m_no_repeat_ngram_size => no_repeat_ngram_size
  | m_stop_criteria => stop_criteria
  | m_temperature => temperature
  | m_top_p => top_p
  | m_top_k => top_k
  | m_do_sample => do_sample
  | m_repetition_penalty => repetition_penalty
  | m_eos_token_id => eos_token_id
  end.

Definition set (m : member) : member_type m -> GenerationConfig -> GenerationConfig :=
  match m with
  | m_max_new_tokens => fun v '(Build_GenerationConfig _ a2 a3 a4 a5 a6 a7 a8 a9 a10 a11 a12 a13 a14 a15 a16) =>
      Build_GenerationConfig v a2 a3 a4 a5 a6 a7 a8 a9 a10 a11 a12 a13 a14 a15 a16
  | m_max_length => fun v '(Build_GenerationConfig a1 _ a3 a4 a5 a6 a7 a8 a9 a10 a11 a12 a13 a14 a15 a16) =>
      Build_GenerationConfig a1 v a3 a4 a5 a6 a7 a8 a9 a10 a11 a12 a13 a14 a15 a16
  | m_ignore_eos => fun v '(Build_GenerationConfig a1 a2 _ a4 a5 a6 a7 a8 a9 a10 a11 a12 a13 a14 a15 a16) =>
      Build_GenerationConfig a1 a2 v a4 a5 a6 a7 a8 a9 a10 a11 a12 a13 a14 a15 a16
  | m_num_beam_groups => fun v '(Build_GenerationConfig a1 a2 a3 _ a5 a6 a7 a8 a9 a10 a11 a12 a13 a14 a15 a16) =>
      Build_GenerationConfig a1 a2 a3 v a5 a6 a7 a8 a9 a10 a11 a12 a13 a14 a15 a16
  | m_num_beams => fun v '(Build_GenerationConfig a1 a2 a3 a4 _ a6 a7 a8 a9 a10 a11 a12 a13 a14 a15 a16) =>
      Build_GenerationConfig a1 a2 a3 a4 v a6 a7 a8 a9 a10 a11 a12 a13 a14 a15 a16
  | m_diversity_penalty => fun v '(Build_GenerationConfig a1 a2 a3 a4 a5 _ a7 a8 a9 a10 a11 a12 a13 a14 a15 a16) =>
      Build_GenerationConfig a1 a2 a3 a4 a5 v a7 a8 a9 a10 a11 a12 a13 a14 a15 a16
  | m_length_penalty => fun v '(Build_GenerationConfig a1 a2 a3 a4 a5 a6 _ a8 a9 a10 a11 a12 a13 a14 a15 a16) =>
      Build_GenerationConfig a1 a2 a3 a4 a5 a6 v a8 a9 a10 a11 a12 a13 a14 a15 a16
  | m_num_return_sequences => fun v '(Build_GenerationConfig a1 a2 a3 a4 a5 a6 a7 _ a9 a10 a11 a12 a13 a14 a15 a16) =>
      Build_GenerationConfig a1 a2 a3 a4 a5 a6 a7 v a9 a10 a11 a12 a13 a14 a15 a16
  | m_no_repeat_ngram_size => fun v '(Build_GenerationConfig a1 a2 a3 a4 a5 a6 a7 a8 _ a10 a11 a12 a13 a14 a15 a16) =>
      Build_GenerationConfig a1 a2 a3 a4 a5 a6 a7 a8 v a10 a11 a12 a13 a14 a15 a16
  | m_stop_criteria => fun v '(Build_GenerationConfig a1 a2 a3 a4 a5 a6 a7 a8 a9 _ a11 a12 a13 a14 a15 a16) =>
      Build_GenerationConfig a1 a2 a3 a4 a5 a6 a7 a8 a9 v a11 a12 a13 a14 a15 a16
  | m_temperature => fun v '(Build_GenerationConfig a1 a2 a3 a4 a5 a6 a7 a8 a9 a10 _ a12 a13 a14 a15 a16) =>
      Build_GenerationConfig a1 a2 a3 a4 a5 a6 a7 a8 a9 a10 v a12 a13 a14 a15 a16
  | m_top_p => fun v '(Build_GenerationConfig a1 a2 a3 a4 a5 a6 a7 a8 a9 a10 a11 _ a13 a14 a15 a16) =>
      Build_GenerationConfig a1 a2 a3 a4 a5 a6 a7 a8 a9 a10 a11 v a13 a14 a15 a16
  | m_top_k => fun v '(Build_GenerationConfig a1 a2 a3 a4 a5 a6 a7 a8 a9 a10 a11 a12 _ a14 a15 a16) =>
      Build_GenerationConfig a1 a2 a3 a4 a5 a6 a7 a8 a9 a10 a11 a12 v a14 a15 a16
  | m_do_sample => fun v '(Build_GenerationConfig a1 a2 a3 a4 a5 a6 a7 a8 a9 a10 a11 a12 a13 _ a15 a16) =>
      Build_GenerationConfig a1 a2 a3 a4 a5 a6 a7 a8 a9 a10 a11 a12 a13 v a15 a16
  | m_repetition_penalty => fun v '(Build_GenerationConfig a1 a2 a3 a4 a5 a6 a7 a8 a9 a10 a11 a12 a13 a14 _ a16) =>
      Build_GenerationConfig a1 a2 a3 a4 a5 a6 a7 a8 a9 a10 a11 a12 a13 a14 v a16
  | m_eos_token_id => fun v '(Build_GenerationConfig a1 a2 a3 a4 a5 a6 a7 a8 a9 a10 a11 a12 a13 a14 a15 _) =>
      Build_GenerationConfig a1 a2 a3 a4 a5 a6 a7 a8 a9 a10 a11 a12 a13 a14 a15 v
  end.

(** ** Member functions that assign and may throw *)

(** A computation on [*this]: the object as it is left, and the outcome.
    The object keeps the assignments made before a throw. *)
Definition method (A : Type) : Type :=
  GenerationConfig -> GenerationConfig * result A.

#[global] Instance method_ret : MRet method := fun _ a this => (this, OK a).
#[global] Instance method_bind : MBind method := fun _ _ f m this =>
  match m this with
  | (this', OK a) => f a this'
  | (this', Throw e) => (this', Throw e)
  end.

Definition assign (m : member) (v : member_type m) : method unit :=
  fun this => (set m v this, OK tt).

Definition throw {A : Type} (e : Exception) : method A :=
  fun this => (this, Throw e).

(** The object after the computation, and its outcome. *)
Definition after {A : Type} (f : method A) (this : GenerationConfig) : GenerationConfig :=
  fst (f this).
Definition outcome {A : Type} (f : method A) (this : GenerationConfig) : result A :=
  snd (f this).

(** [f] leaves the member [m] as it was, whether it throws or not. *)
Definition keeps (m : member) (f : method unit) : Prop :=
  forall this, get m (after f this) = get m this.

(** ** External sources *)

(** A parsed document ([nlohmann::json]).  [Jinteger] stands for the
    signed and the unsigned integer numbers alike; the constructor
    tells the types [string] and [boolean] from the others only. *)
Inductive json : Type :=
| Jnull
| Jboolean (b : bool)
| Jinteger (z : Z)
| Jfloat (d : spec_float)
| Jstring (s : string)
| Jarray (l : list json)
| Jobject (o : gmap string json).

Inductive value_t : Type :=
| vt_null | vt_boolean | vt_number_integer | vt_number_float
| vt_string | vt_array | vt_object.

#[global] Instance value_t_eq_dec : EqDecision value_t.
Proof. solve_decision. Defined.

(** [j.type()] *)
Definition type (j : json) : value_t :=
  match j with
  | Jnull => vt_null
  | Jboolean _ => vt_boolean
  | Jinteger _ => vt_number_integer
  | Jfloat _ => vt_number_float
  | Jstring _ => vt_string
  | Jarray _ => vt_array
  | Jobject _ => vt_object
  end.

(** [data.contains(key)]: only an object contains keys. *)
Definition contains (data : json) (key : string) : bool :=
  match data with
  | Jobject o => bool_decide (is_Some (o !! key))
  | _ => false
  end.

(** [data[key]], read where [contains] holds. *)
Definition at_key (data : json) (key : string) : json :=
  match data with
  | Jobject o => default Jnull (o !! key)
  | _ => Jnull
  end.

(** [j == "text"] and [j == true] / [j == false]. *)
Definition json_eq_string (j : json) (s : string) : bool :=
  match j with
  | Jstring t => bool_decide (t = s)
  | _ => false
  end.

Definition json_eq_bool (j : json) (b : bool) : bool :=
  match j with
  | Jboolean b' => bool_decide (b' = b)
  | _ => false
  end.

(** A value of a runtime override map ([ov::Any]); [ov::AnyMap] is a
    map from names to such values. *)
Inductive Any : Type :=
| any_size_t (z : Z)
| any_int64_t (z : Z)
| any_bool (b : bool)
| any_float (x : float)
| any_StopCriteria (s : StopCriteria)
| any_string (s : string).

Abbreviation AnyMap := (gmap string Any).

(** [double] to [float], and an integer to [float]: round to nearest. *)
Definition float_of_double (d : spec_float) : float :=
  match d with
  | S754_finite s m e => binary_round 24 128 s m e
  | _ => d
  end.

Definition float_of_Z (z : Z) : float := binary_normalize 24 128 z 0 false.

Section Sources.

Variable w : positive.

(** Modelled from the spec: the conversion of a document value to the
    member's type, used by [read_json_param] of [utils.hpp], which is
    not in the sources.  Section 4.1: a value whose shape does not fit the
    target member is a type mismatch and is not coerced.  A boolean
    fits [bool], an integer in range fits an integer member, a number
    fits [float]; no member of type [StopCriteria] is read by name. *)
Definition json_get (t : ctype) (j : json) : option (denote t) :=
  match t with
  | t_size_t =>
      match j with
      | Jinteger z => if bool_decide (0 <= z <= SIZE_MAX w) then Some z else None
      | _ => None
      end
  | t_int64_t =>
      match j with
      | Jinteger z => if bool_decide (- 2 ^ 63 <= z < 2 ^ 63) then Some z else None
      | _ => None
      end
  | t_bool => match j with Jboolean b => Some b | _ => None end
  | t_float =>
      match j with
      | Jinteger z => Some (float_of_Z z)
      | Jfloat d => Some (float_of_double d)
      | _ => None
      end
  | t_StopCriteria => None
  end.

(** Modelled from the spec: [read_json_param] of [utils.hpp], which is
    not in the sources.  Section 4.1: a key present in the source overwrites
    the member, an absent key leaves it untouched, a value of the wrong
    shape is reported as an error. *)
Definition read_json_param (data : json) (name : string) (param : member) : method unit :=
  if contains data name then
    match json_get (member_ctype param) (at_key data name) with
    | Some v => assign param v
    | None => throw (TypeMismatch name)
    end
  else mret tt.

(** Modelled from the spec: the typed read [as<T>()] of an override
    value, used by [read_anymap_param] of [utils.hpp], which is not in
    the sources.  A value holding another type is a type mismatch. *)
Definition any_as (t : ctype) (a : Any) : option (denote t) :=
  match t, a with
  | t_size_t, any_size_t z => Some z
  | t_int64_t, any_int64_t z => Some z
  | t_bool, any_bool b => Some b
  | t_float, any_float x => Some x
  | t_StopCriteria, any_StopCriteria s => Some s
  | _, _ => None
  end.

(** Modelled from the spec: [read_anymap_param] of [utils.hpp], which
    is not in the sources.  Section 4.1, as for [read_json_param]. *)
Definition read_anymap_param (config_map : AnyMap) (name : string) (param : member) : method unit :=
  match config_map !! name with
  | Some a =>
      match any_as (member_ctype param) a with
      | Some v => assign param v
      | None => throw (TypeMismatch name)
      end
  | None => mret tt
  end.

(** *** [GenerationConfig::GenerationConfig(const std::string& json_path)]

    The body of the constructor, from the parsed document on: the
    members read under their own name (lines 24 to 38), then the legacy
    field [early_stopping] (lines 40 to 49). *)
Definition read_members (data : json) : method unit :=
  read_json_param data "max_new_tokens" m_max_new_tokens ;;
  read_json_param data "max_length" m_max_length ;;
  (* note that ignore_eos is not present in HF GenerationConfig *)
  read_json_param data "num_beam_groups" m_num_beam_groups ;;
  read_json_param data "num_beams" m_num_beams ;;
  read_json_param data "diversity_penalty" m_diversity_penalty ;;
  read_json_param data "length_penalty" m_length_penalty ;;
  read_json_param data "num_return_sequences" m_num_return_sequences ;;
  read_json_param data "no_repeat_ngram_size" m_no_repeat_ngram_size ;;
  read_json_param data "temperature" m_temperature ;;
  read_json_param data "top_p" m_top_p ;;
  read_json_param data "top_k" m_top_k ;;
  read_json_param data "do_sample" m_do_sample ;;
  read_json_param data "repetition_penalty" m_repetition_penalty ;;
  read_json_param data "eos_token_id" m_eos_token_id.

Definition read_early_stopping (data : json) : method unit :=
  if contains data "early_stopping" then
    let field_type := type (at_key data "early_stopping") in
    if bool_decide (field_type = vt_string)
       && json_eq_string (at_key data "early_stopping") "never" then
      assign m_stop_criteria NEVER
    else if bool_decide (field_type = vt_boolean)
            && json_eq_bool (at_key data "early_stopping") true then
      assign m_stop_criteria EARLY
    else if bool_decide (field_type = vt_boolean)
            && json_eq_bool (at_key data "early_stopping") false then
      assign m_stop_criteria HEURISTIC
    else mret tt
  else mret tt.

Definition GenerationConfig_ctor (data : json) : method unit :=
  read_members data ;;
  read_early_stopping data.

(** *** [GenerationConfig::update_generation_config] *)
Definition update_generation_config (config_map : AnyMap) : method unit :=
  read_anymap_param config_map "max_new_tokens" m_max_new_tokens ;;
  read_anymap_param config_map "max_length" m_max_length ;;
  read_anymap_param config_map "ignore_eos" m_ignore_eos ;;
  read_anymap_param config_map "num_beam_groups" m_num_beam_groups ;;
  read_anymap_param config_map "num_beams" m_num_beams ;;
  read_anymap_param config_map "diversity_penalty" m_diversity_penalty ;;
  read_anymap_param config_map "length_penalty" m_length_penalty ;;
  read_anymap_param config_map "num_return_sequences" m_num_return_sequences ;;
  read_anymap_param config_map "no_repeat_ngram_size" m_no_repeat_ngram_size ;;
  read_anymap_param config_map "stop_criteria" m_stop_criteria ;;
  read_anymap_param config_map "temperature" m_temperature ;;
  read_anymap_param config_map "top_p" m_top_p ;;
  read_anymap_param config_map "top_k" m_top_k ;;
  read_anymap_param config_map "do_sample" m_do_sample ;;
  read_anymap_param config_map "repetition_penalty" m_repetition_penalty ;;
  read_anymap_param config_map "eos_token_id" m_eos_token_id.

(** Modelled from the spec: the default member initialisers of
    [generation_config.hpp], which is not in the sources; the values
    are those of the table of section 3. *)
Definition default_config : GenerationConfig := {|
  max_new_tokens := SIZE_MAX w;
  max_length := SIZE_MAX w;
  ignore_eos := false;
  num_beam_groups := 1;
  num_beams := 1;
  diversity_penalty := float_zero;
  length_penalty := float_one;
  num_return_sequences := 1;
  no_repeat_ngram_size := 0;
  stop_criteria := HEURISTIC;
  temperature := float_one;
  top_p := float_one;
  top_k := SIZE_MAX w;
  do_sample := false;
  repetition_penalty := float_one;
  eos_token_id := -1
|}.

(** The object built from a parsed document: the members are
    default-initialised, then the body runs; a throw leaves no object. *)
Definition GenerationConfig_of_json (data : json) : result GenerationConfig :=
  match GenerationConfig_ctor data default_config with
  | (this, OK _) => OK this
  | (_, Throw e) => Throw e
  end.

End Sources.

(** ** The specification's side

    The definitions below follow the wording of the specification, not
    the code; the theorems compare the two. *)

(** The external name of each member (table of section 3). *)
Definition member_name (m : member) : string :=
  match m with
  | m_max_new_tokens => "max_new_tokens"
  | m_max_length => "max_length"
  | m_ignore_eos => "ignore_eos"
  | m_num_beam_groups => "num_beam_groups"
  | m_num_beams => "num_beams"
  | m_diversity_penalty => "diversity_penalty"
  | m_length_penalty => "length_penalty"
  | m_num_return_sequences => "num_return_sequences"
  | m_no_repeat_ngram_size => "no_repeat_ngram_size"
  | m_stop_criteria => "stop_criteria"
  | m_temperature => "temperature"
  | m_top_p => "top_p"
  | m_top_k => "top_k"
  | m_do_sample => "do_sample"
  | m_repetition_penalty => "repetition_penalty"
  | m_eos_token_id => "eos_token_id"
  end.

Definition all_members : list member :=
  [m_max_new_tokens; m_max_length; m_ignore_eos; m_num_beam_groups;
   m_num_beams; m_diversity_penalty; m_length_penalty;
   m_num_return_sequences; m_no_repeat_ngram_size; m_stop_criteria;
   m_temperature; m_top_p; m_top_k; m_do_sample; m_repetition_penalty;
   m_eos_token_id].

(** The members a document sets under their own name: all but
    [ignore_eos] and [stop_criteria]. *)
Definition file_member (m : member) : bool :=
  match m with
  | m_ignore_eos | m_stop_criteria => false
  | _ => true
  end.

(** The keys of a document that the file-backed load looks at. *)
Definition file_keys : list string :=
  "early_stopping" :: map member_name (List.filter file_member all_members).

(** The three encodings of the legacy field [early_stopping]
    (section 4.1); any other value is not mapped. *)
Definition early_stopping_encoding (j : json) : option StopCriteria :=
  match j with
  | Jstring s => if decide (s = "never") then Some NEVER else None
  | Jboolean true => Some EARLY
  | Jboolean false => Some HEURISTIC
  | _ => None
  end.

(** The value of a key of a document, if the document has it. *)
Definition field_of (data : json) (key : string) : option json :=
  match data with
  | Jobject o => o !! key
  | _ => None
  end.

(** The member [m] of [c'] is the document's value for it where the
    document has one, and the member of [c] where it has none. *)
Definition overlaid (w : positive) (data : json) (m : member)
    (c c' : GenerationConfig) : Prop :=
  match field_of data (member_name m) with
  | Some j => json_get w (member_ctype m) j = Some (get m c')
  | None => get m c' = get m c
  end.

(** Every member the document names under its own key has a value of
    the member's shape. *)
Definition well_typed (w : positive) (data : json) : Prop :=
  forall m j, file_member m = true ->
    field_of data (member_name m) = Some j ->
    is_Some (json_get w (member_ctype m) j).

(** The members [validate] does not look at. *)
Definition unchecked_member (m : member) : bool :=
  match m with
  | m_num_beam_groups | m_diversity_penalty | m_length_penalty
  | m_num_return_sequences | m_no_repeat_ngram_size | m_stop_criteria => true
  | _ => false
  end.

(** A rule of section 4.4: its number, when a configuration violates
    it, and what is then raised. *)
Record rule : Type := {
  rule_number : nat;
  violated : GenerationConfig -> bool;
  raised : GenerationConfig -> Exception
}.

Section Rules.

Variable w : positive.

Definition unset (z : Z) : bool := z =? SIZE_MAX w.

Definition validation_rules : list rule := [
  (* 1. sampling and beam search are mutually exclusive *)
  {| rule_number := 1;
     violated c := do_sample c && negb (num_beams c =? 1);
     raised c := AssertFailure beam_sampling_text [] |};
  (* 2. max_new_tokens equal to zero *)
  {| rule_number := 2;
     violated c := max_new_tokens c =? 0;
     raised c := AssertFailure max_new_tokens_text [] |};
  (* 3. max_new_tokens unset and max_length zero *)
  {| rule_number := 3;
     violated c := unset (max_new_tokens c) && (max_length c =? 0);
     raised c := AssertFailure max_length_text [] |};
  (* 4. when sampling: top_k not strictly positive *)
  {| rule_number := 4;
     violated c := do_sample c && (top_k c <=? 0);
     raised c := AssertFailure top_k_text [of_size_t (top_k c)] |};
  (* 4. when sampling: top_p outside (0, 1] *)
  {| rule_number := 4;
     violated c := do_sample c
                   && negb (SFltb float_zero (top_p c) && SFleb (top_p c) float_one);
     raised c := AssertFailure top_p_text [of_float (top_p c)] |};
  (* 4. when sampling: temperature not strictly positive *)
  {| rule_number := 4;
     violated c := do_sample c && negb (SFltb float_zero (temperature c));
     raised c := AssertFailure temperature_text [of_float (temperature c)] |};
  (* 5. repetition_penalty not strictly positive *)
  {| rule_number := 5;
     violated c := negb (SFltb float_zero (repetition_penalty c));
     raised c := AssertFailure repetition_penalty_text [of_float (repetition_penalty c)] |};
  (* 6. ignore_eos with both max_new_tokens and max_length unset *)
  {| rule_number := 6;
     violated c := ignore_eos c && unset (max_new_tokens c) && unset (max_length c);
     raised c := AssertFailure ignore_eos_text [] |};
  (* 7. eos_token_id unset with both max_new_tokens and max_length unset *)
  {| rule_number := 7;
     violated c := (eos_token_id c =? -1)
                   && unset (max_new_tokens c) && unset (max_length c);
     raised c := AssertFailure eos_token_id_text [] |}
].

(** Fail on the first violated rule. *)
Definition first_violation (c : GenerationConfig) : result unit :=
  match List.find (fun r => violated r c) validation_rules with
  | Some r => Throw (raised r c)
  | None => OK tt
  end.

(** The conditions of the nine assertions, all at once. *)
Definition accepted (c : GenerationConfig) : bool :=
  (negb (do_sample c) || (num_beams c =? 1))
  && (0 <? max_new_tokens c)
  && (negb (max_new_tokens c =? SIZE_MAX w) || (0 <? max_length c))
  && (negb (do_sample c) || (0 <? top_k c))
  && (negb (do_sample c)
      || (float_gt (top_p c) float_zero && float_le (top_p c) float_one))
  && (negb (do_sample c) || float_gt (temperature c) float_zero)
  && float_gt (repetition_penalty c) float_zero
  && (negb (ignore_eos c)
      || negb (max_new_tokens c =? SIZE_MAX w)
      || negb (max_length c =? SIZE_MAX w))
  && (negb (eos_token_id c =? -1)
      || negb (max_new_tokens c =? SIZE_MAX w)
      || negb (max_length c =? SIZE_MAX w)).

End Rules.

(** ** Sample inputs

    Configurations, documents and override maps on a platform whose
    [size_t] has 64 bits. *)

Definition float_one_and_half : float := S754_finite false 12582912 (-23).

(** Defaults with [max_new_tokens = 50]. *)
Definition budget_50 : GenerationConfig :=
  set m_max_new_tokens 50 (default_config 64).

(** Defaults with [max_length = 100]. *)
Definition length_100 : GenerationConfig :=
  set m_max_length 100 (default_config 64).

(** Sampling with [top_k = 40] and a budget of 50 tokens. *)
Definition sampling_40 : GenerationConfig :=
  set m_do_sample true (set m_top_k 40 budget_50).

(** No sampling and [top_p = 1.5]. *)
Definition greedy_top_p_out_of_range : GenerationConfig :=
  set m_top_p float_one_and_half budget_50.

(** No sampling and a beam width of zero. *)
Definition zero_beams : GenerationConfig :=
  set m_num_beams 0 budget_50.

(** [budget_50] returning no sequence, with no beam group. *)
Definition zero_sequences : GenerationConfig :=
  set m_num_return_sequences 0 (set m_num_beam_groups 0 budget_50).

Definition doc_ignore_eos : json :=
  Jobject {[ "ignore_eos" := Jboolean true ]}.

Definition doc_maybe : json :=
  Jobject {[ "early_stopping" := Jstring "maybe" ]}.

Definition doc_top_k : json :=
  Jobject (<[ "top_k" := Jinteger 40 ]> {[ "early_stopping" := Jboolean true ]}).

Definition map_top_k : AnyMap := {[ "top_k" := any_size_t 40 ]}.

(** ** Notions for the further properties *)

(** A [float] above zero: a positive finite number or plus infinity. *)
Definition float_positive (x : float) : Prop :=
  match x with
  | S754_finite false _ _ | S754_infinity false => True
  | _ => False
  end.

Definition float_positive_finite (x : float) : Prop :=
  match x with
  | S754_finite false _ _ => True
  | _ => False
  end.

(** The value an override map holds for a member, read at the
    member's type. *)
Definition override_value (config_map : AnyMap) (m : member) : option (member_type m) :=
  config_map !! member_name m ≫= any_as (member_ctype m).

(** The map has the member's key with a value of another type. *)
Definition ill_typed (config_map : AnyMap) (m : member) : bool :=
  match config_map !! member_name m with
  | Some a =>
      match any_as (member_ctype m) a with
      | Some _ => false
      | None => true
      end
  | None => false
  end.


(** Reading the members of a list in turn, each under its own name. *)
Fixpoint read_in_turn (config_map : AnyMap) (ms : list member) : method unit :=
  match ms with
  | [] => mret tt
  | m :: ms' =>
      read_anymap_param config_map (member_name m) m ;;
      read_in_turn config_map ms'
  end.

(** The members of a list read before the first ill-typed one. *)
Fixpoint read_before_throw (config_map : AnyMap) (ms : list member) : list member :=
  match ms with
  | [] => []
  | m :: ms' =>
      if ill_typed config_map m then []
      else m :: read_before_throw config_map ms'
  end.

(** More sample inputs. *)

(** Sampling with a beam width of two. *)
Definition sampling_two_beams : GenerationConfig :=
  set m_num_beams 2 sampling_40.

(** A map whose value for [top_p] has the wrong type. *)
Definition map_bad_top_p : AnyMap :=
  <[ "max_new_tokens" := any_size_t 7 ]>
    (<[ "top_p" := any_bool true ]> {[ "top_k" := any_size_t 40 ]}).

(** A map that names no member [validate] reads. *)
Definition map_beam_groups : AnyMap :=
  <[ "num_beam_groups" := any_size_t 0 ]> {[ "stop_criteria" := any_StopCriteria NEVER ]}.

(** * Properties *)

(** ** Assertions in sequence *)

Lemma assert_then (b : bool) (text : string) (args : list streamed) (k : result unit) :
  (OPENVINO_ASSERT b text args ;; k) = if b then k else Throw (AssertFailure text args).
Proof. destruct b; reflexivity. Qed.

Lemma assert_last (b : bool) (text : string) (args : list streamed) :
  OPENVINO_ASSERT b text args = if b then OK tt else Throw (AssertFailure text args).
Proof. reflexivity. Qed.

Section Validation.

Variable w : positive.

Lemma validate_ok (c : GenerationConfig) :
  validate w c = OK tt <-> accepted w c = true.
Proof.
  unfold validate, accepted.
  rewrite !assert_then, assert_last.
  repeat match goal with
         | |- context [if ?b then _ else _] => destruct b; cbn [andb]
         end; split; congruence.
Qed.

(** On a configuration whose members hold values of their types, the
    nine assertions are the rules of section 4.4, in their order. *)
Lemma validate_first_violation (c : GenerationConfig) :
  0 <= max_new_tokens c -> 0 <= max_length c ->
  validate w c = first_violation w c.
Proof.
  intros Hn Hl.
  unfold validate, first_violation, validation_rules, unset, float_gt, float_le.
  cbn [List.find violated raised].
  rewrite !assert_then, assert_last.
  replace (max_new_tokens c =? 0) with (negb (0 <? max_new_tokens c)) by lia.
  replace (max_length c =? 0) with (negb (0 <? max_length c)) by lia.
  replace (top_k c <=? 0) with (negb (0 <? top_k c)) by lia.
  destruct (do_sample c), (num_beams c =? 1); cbn; try reflexivity;
  destruct (0 <? max_new_tokens c); cbn; try reflexivity;
  destruct (max_new_tokens c =? SIZE_MAX w); cbn;
  destruct (0 <? max_length c); cbn; try reflexivity;
  destruct (0 <? top_k c); cbn; try reflexivity;
  destruct (SFltb float_zero (top_p c)); cbn; try reflexivity;
  destruct (SFleb (top_p c) float_one); cbn; try reflexivity;
  destruct (SFltb float_zero (temperature c)); cbn; try reflexivity;
  destruct (SFltb float_zero (repetition_penalty c)); cbn; try reflexivity;
  destruct (ignore_eos c); cbn;
  destruct (max_length c =? SIZE_MAX w); cbn; try reflexivity;
  destruct (eos_token_id c =? -1); reflexivity.
Qed.

End Validation.

(** ** Mode classification and derived budget *)

Section QueryProperties.

Variable w : positive.

(** C1. On every configuration that [validate] accepts, exactly one of
    [is_greedy_decoding], [is_beam_search] and [is_multinomial] holds:
    as numbers, the three booleans add up to 1. *)
Theorem validated_modes_partition (c : GenerationConfig) :
  validate w c = OK tt ->
  Z.b2z (is_greedy_decoding c) + Z.b2z (is_beam_search c) + Z.b2z (is_multinomial c) = 1.
Proof.
  intros V. apply validate_ok in V. unfold accepted in V.
  repeat (apply andb_prop in V as [V _]).
  unfold is_greedy_decoding, is_beam_search, is_multinomial.
  destruct (do_sample c); cbn in V |- *.
  - apply Z.eqb_eq in V. rewrite V. reflexivity.
  - destruct (1 <? num_beams c); reflexivity.
Qed.

(** C2. [get_max_new_tokens] returns [max_new_tokens] whenever it is
    not [SIZE_MAX], whatever [max_length] and the prompt length are;
    otherwise it returns the [size_t] difference
    [max_length - prompt_length], which is the exact difference when
    the prompt is not longer than [max_length]. *)
Theorem get_max_new_tokens_priority (c : GenerationConfig) (prompt_length : Z) :
  (max_new_tokens c <> SIZE_MAX w ->
     get_max_new_tokens w c prompt_length = max_new_tokens c)
  /\ (max_new_tokens c = SIZE_MAX w ->
        get_max_new_tokens w c prompt_length = size_sub w (max_length c) prompt_length)
  /\ (max_new_tokens c = SIZE_MAX w ->
        in_size_t w (max_length c) -> 0 <= prompt_length <= max_length c ->
        get_max_new_tokens w c prompt_length = max_length c - prompt_length).
Proof.
  unfold get_max_new_tokens, size_sub, in_size_t, SIZE_MAX.
  repeat split.
  - intros Hne. apply Z.eqb_neq in Hne. now rewrite Hne.
  - intros Heq. apply Z.eqb_eq in Heq. now rewrite Heq.
  - intros Heq Hl Hp. apply Z.eqb_eq in Heq. rewrite Heq. cbn [negb].
    apply Z.mod_small. lia.
Qed.

(** C8, as the code has it. [is_greedy_decoding] holds exactly when
    [do_sample] is false and [num_beams] is not greater than 1; for a
    beam width of at least 1 that is a beam width of 1. *)
Theorem is_greedy_decoding_iff (c : GenerationConfig) :
  (is_greedy_decoding c = true <-> do_sample c = false /\ num_beams c <= 1)
  /\ (1 <= num_beams c ->
      (is_greedy_decoding c = true <-> do_sample c = false /\ num_beams c = 1)).
Proof.
  unfold is_greedy_decoding, is_beam_search.
  rewrite andb_true_iff, !negb_true_iff, Z.ltb_ge.
  split; [reflexivity|]. intros H1. split; intros [? ?]; split; trivial; lia.
Qed.

(** C9. With [max_new_tokens] unset and a prompt longer than
    [max_length], [get_max_new_tokens] returns the difference reduced
    modulo [2^w]: it wraps around to [2^w + max_length - prompt_length],
    a positive [size_t], and is neither clamped to zero nor an error. *)
Theorem get_max_new_tokens_wraps (c : GenerationConfig) (prompt_length : Z) :
  max_new_tokens c = SIZE_MAX w ->
  in_size_t w (max_length c) -> in_size_t w prompt_length ->
  max_length c < prompt_length ->
  get_max_new_tokens w c prompt_length = (max_length c - prompt_length) mod 2 ^ Z.pos w
  /\ get_max_new_tokens w c prompt_length = 2 ^ Z.pos w + max_length c - prompt_length
  /\ 0 < get_max_new_tokens w c prompt_length <= SIZE_MAX w.
Proof.
  unfold get_max_new_tokens, size_sub, in_size_t, SIZE_MAX.
  intros Heq Hl Hp Hlt. apply Z.eqb_eq in Heq. rewrite Heq. cbn [negb].
  assert (E : (max_length c - prompt_length) mod 2 ^ Z.pos w
              = 2 ^ Z.pos w + max_length c - prompt_length).
  { symmetry. apply (Z.mod_unique _ _ (-1)); lia. }
  rewrite E. repeat split; lia.
Qed.

End QueryProperties.

(** ** Validation rules *)

Section ValidationProperties.

Variable w : positive.

Lemma first_violation_ok (c : GenerationConfig) :
  first_violation w c = OK tt <->
  forall r, In r (validation_rules w) -> violated r c = false.
Proof.
  unfold first_violation.
  destruct (List.find _ _) as [r|] eqn:F.
  - apply List.find_some in F as [Hin Hv]. split; [discriminate|].
    intros H. rewrite (H r Hin) in Hv. discriminate.
  - split; [|reflexivity]. intros _ r Hin.
    apply (List.find_none _ _ F) in Hin. exact Hin.
Qed.

(** C3. [validate] checks the seven rules of section 4.4 in their
    order (rule 4 being the three sampling checks on [top_k], [top_p]
    and [temperature]) and raises the error of the first rule that is
    violated; it returns normally when none is. *)
Theorem validate_checks_rules_in_order (c : GenerationConfig) :
  wf_config w c ->
  validate w c = first_violation w c
  /\ map rule_number (validation_rules w) = [1; 2; 3; 4; 4; 4; 5; 6; 7]%nat.
Proof.
  intros [Hn Hl]. split; [|reflexivity].
  apply validate_first_violation; [apply Hn | apply Hl].
Qed.

(** C4. With [do_sample] false, [validate] does not depend on [top_k],
    [top_p] and [temperature]: whatever they are replaced with, the
    outcome is the same, and it is never one of the three errors about
    them.  With [do_sample] true, [validate] accepts only if
    [top_k > 0], [0 < top_p <= 1] and [temperature > 0]. *)
Theorem sampling_domains_only_when_sampling (c : GenerationConfig) :
  (do_sample c = false ->
   forall (k : Z) (p t : float),
     validate w (set m_top_k k (set m_top_p p (set m_temperature t c))) = validate w c)
  /\ (do_sample c = false ->
      forall args,
        validate w c <> Throw (AssertFailure top_k_text args)
        /\ validate w c <> Throw (AssertFailure top_p_text args)
        /\ validate w c <> Throw (AssertFailure temperature_text args))
  /\ (do_sample c = true ->
      validate w c = OK tt ->
      0 < top_k c
      /\ SFltb float_zero (top_p c) = true /\ SFleb (top_p c) float_one = true
      /\ SFltb float_zero (temperature c) = true).
Proof.
  split; [|split].
  - intros Hs k p t. destruct c. cbn in Hs. subst. reflexivity.
  - intros Hs args. unfold validate.
    rewrite !assert_then, assert_last, Hs. cbn [negb orb].
    repeat match goal with
           | |- context [if ?b then _ else _] => destruct b
           end; repeat split; discriminate.
  - intros Hs V. apply validate_ok in V. unfold accepted in V.
    rewrite Hs in V. cbn [negb orb] in V.
    rewrite !andb_true_iff in V. unfold float_gt, float_le in V.
    destruct V as [[[[[[[[_ _] _] Hk] [Hp1 Hp2]] Ht] _] _] _].
    apply Z.ltb_lt in Hk. auto.
Qed.

(** C10. [validate] raises exactly when one of the rules of section
    4.4 is violated, and its outcome is a function of the members the
    rules mention: two configurations that differ only in
    [num_beam_groups], [diversity_penalty], [length_penalty],
    [num_return_sequences], [no_repeat_ngram_size] and [stop_criteria]
    are both accepted, or both rejected with the same error. *)
Theorem validate_ignores_unchecked_members (c1 c2 : GenerationConfig) :
  wf_config w c1 ->
  (forall m, unchecked_member m = false -> get m c1 = get m c2) ->
  validate w c1 = validate w c2
  /\ (is_ok (validate w c1) = false <->
      exists r, In r (validation_rules w) /\ violated r c1 = true).
Proof.
  intros [Hn Hl] H. split.
  - pose proof (H m_max_new_tokens eq_refl).
    pose proof (H m_max_length eq_refl).
    pose proof (H m_ignore_eos eq_refl).
    pose proof (H m_num_beams eq_refl).
    pose proof (H m_temperature eq_refl).
    pose proof (H m_top_p eq_refl).
    pose proof (H m_top_k eq_refl).
    pose proof (H m_do_sample eq_refl).
    pose proof (H m_repetition_penalty eq_refl).
    pose proof (H m_eos_token_id eq_refl).
    destruct c1, c2. cbn in *. subst. reflexivity.
  - rewrite validate_first_violation by (apply Hn || apply Hl).
    pose proof (first_violation_ok c1) as Hok.
    destruct (first_violation w c1) as [[]|e] eqn:F; cbn; split.
    + discriminate.
    + intros (r & Hin & Hv). rewrite (proj1 Hok eq_refl r Hin) in Hv. discriminate.
    + intros _. unfold first_violation in F.
      destruct (List.find _ _) as [r|] eqn:Ff; [|discriminate].
      apply List.find_some in Ff. exists r. exact Ff.
    + reflexivity.
Qed.

End ValidationProperties.

(** ** Assignments in sequence *)

Lemma get_set_same (m : member) (v : member_type m) (c : GenerationConfig) :
  get m (set m v c) = v.
Proof. destruct m, c; reflexivity. Qed.

Lemma get_set_other (m m' : member) (v : member_type m') (c : GenerationConfig) :
  m <> m' -> get m (set m' v c) = get m c.
Proof. intros Hne. destruct m, m', c; try reflexivity; congruence. Qed.

Lemma after_bind (f g : method unit) (this : GenerationConfig) :
  after (f ;; g) this =
  match outcome f this with
  | OK _ => after g (after f this)
  | Throw _ => after f this
  end.
Proof.
  unfold after, outcome, mbind, method_bind.
  destruct (f this) as [c [[]|e]]; reflexivity.
Qed.

Lemma outcome_bind (f g : method unit) (this : GenerationConfig) :
  outcome (f ;; g) this =
  match outcome f this with
  | OK _ => outcome g (after f this)
  | Throw e => Throw e
  end.
Proof.
  unfold after, outcome, mbind, method_bind.
  destruct (f this) as [c [[]|e]]; reflexivity.
Qed.

Lemma outcome_bind_ok (f g : method unit) (this : GenerationConfig) :
  outcome (f ;; g) this = OK tt <->
  outcome f this = OK tt /\ outcome g (after f this) = OK tt.
Proof.
  rewrite outcome_bind.
  destruct (outcome f this) as [[]|e]; split; try tauto; try discriminate.
Qed.

Lemma keeps_bind (m : member) (f g : method unit) :
  keeps m f -> keeps m g -> keeps m (f ;; g).
Proof.
  intros Hf Hg this. rewrite after_bind.
  destruct (outcome f this); [rewrite Hg|]; apply Hf.
Qed.

(** ** Population from a document and from an override map *)

Section Population.

Variable w : positive.

Lemma contains_field_of (data : json) (key : string) :
  contains data key = bool_decide (is_Some (field_of data key)).
Proof. destruct data; reflexivity. Qed.

Lemma at_key_field_of (data : json) (key : string) :
  at_key data key = default Jnull (field_of data key).
Proof. destruct data; reflexivity. Qed.

(** One read of a document, by cases on the key. *)
Lemma read_json_param_run (data : json) (name : string) (m : member)
    (this : GenerationConfig) :
  read_json_param w data name m this =
  match field_of data name with
  | Some j =>
      match json_get w (member_ctype m) j with
      | Some v => (set m v this, OK tt)
      | None => (this, Throw (TypeMismatch name))
      end
  | None => (this, OK tt)
  end.
Proof.
  unfold read_json_param. rewrite contains_field_of, at_key_field_of.
  destruct (field_of data name) as [j|]; cbn; [|reflexivity].
  destruct (json_get w (member_ctype m) j); reflexivity.
Qed.

Lemma keeps_read_json_param (data : json) (name : string) (m m' : member) :
  m <> m' -> keeps m (read_json_param w data name m').
Proof.
  intros Hne this. unfold after. rewrite read_json_param_run.
  destruct (field_of data name) as [j|]; [|reflexivity].
  destruct (json_get w (member_ctype m') j); [|reflexivity].
  apply get_set_other, Hne.
Qed.

Lemma read_json_param_overlaid (data : json) (m : member) (this : GenerationConfig) :
  outcome (read_json_param w data (member_name m) m) this = OK tt ->
  overlaid w data m this (after (read_json_param w data (member_name m) m) this).
Proof.
  unfold outcome, after, overlaid. rewrite read_json_param_run.
  destruct (field_of data (member_name m)) as [j|]; [|reflexivity].
  destruct (json_get w (member_ctype m) j); [|discriminate].
  intros _. cbn. now rewrite get_set_same.
Qed.

Lemma read_json_param_ok (data : json) (name : string) (m : member)
    (this : GenerationConfig) :
  outcome (read_json_param w data name m) this = OK tt <->
  (forall j, field_of data name = Some j -> is_Some (json_get w (member_ctype m) j)).
Proof.
  unfold outcome. rewrite read_json_param_run.
  destruct (field_of data name) as [j|]; cbn.
  - destruct (json_get w (member_ctype m) j) eqn:G; cbn; split; trivial.
    + intros _ j' [= <-]. rewrite G. eauto.
    + discriminate.
    + intros H. destruct (H j eq_refl) as [v Hv]. congruence.
  - split; trivial. discriminate.
Qed.

(** The legacy field never throws and assigns [stop_criteria] only. *)
Lemma read_early_stopping_run (data : json) (this : GenerationConfig) :
  read_early_stopping data this =
  (set m_stop_criteria
     (default (stop_criteria this) (field_of data "early_stopping" ≫= early_stopping_encoding))
     this, OK tt).
Proof.
  unfold read_early_stopping. rewrite contains_field_of, at_key_field_of.
  destruct (field_of data "early_stopping") as [j|]; cbn; [|now destruct this].
  destruct j as [ | [] | | | s | | ]; cbn; try (now destruct this).
  unfold json_eq_string. destruct (decide (s = "never")) as [->|Hs].
  - reflexivity.
  - rewrite (bool_decide_eq_false_2 (s = "never")) by exact Hs. now destruct this.
Qed.

Lemma keeps_read_early_stopping (data : json) (m : member) :
  m <> m_stop_criteria -> keeps m (read_early_stopping data).
Proof.
  intros Hne this. unfold after. rewrite read_early_stopping_run.
  apply get_set_other, Hne.
Qed.

Ltac keeps_members :=
  repeat apply keeps_bind;
  apply keeps_read_json_param; discriminate.

Lemma keeps_read_members (data : json) (m : member) :
  file_member m = false -> keeps m (read_members w data).
Proof.
  intros Hm. unfold read_members.
  destruct m; try discriminate Hm; keeps_members.
Qed.

Lemma overlaid_skip (data : json) (m : member) (f g : method unit) :
  keeps m f ->
  (forall this, outcome g this = OK tt -> overlaid w data m this (after g this)) ->
  forall this, outcome (f ;; g) this = OK tt ->
    overlaid w data m this (after (f ;; g) this).
Proof.
  intros Hf Hg this Hok. apply outcome_bind_ok in Hok as [H1 H2].
  rewrite after_bind, H1. specialize (Hg _ H2). unfold overlaid in *.
  destruct (field_of data (member_name m)); [exact Hg|].
  rewrite Hg. apply Hf.
Qed.

Lemma overlaid_here (data : json) (m : member) (f g : method unit) :
  (forall this, outcome f this = OK tt -> overlaid w data m this (after f this)) ->
  keeps m g ->
  forall this, outcome (f ;; g) this = OK tt ->
    overlaid w data m this (after (f ;; g) this).
Proof.
  intros Hf Hg this Hok. apply outcome_bind_ok in Hok as [H1 H2].
  rewrite after_bind, H1. specialize (Hf _ H1). unfold overlaid in *.
  rewrite Hg. exact Hf.
Qed.

Lemma read_members_overlaid (data : json) (m : member) :
  file_member m = true ->
  forall this, outcome (read_members w data) this = OK tt ->
    overlaid w data m this (after (read_members w data) this).
Proof.
  intros Hm. unfold read_members.
  destruct m; try discriminate Hm;
    repeat (apply overlaid_skip; [apply keeps_read_json_param; discriminate|]);
    first [ apply overlaid_here; [|keeps_members] | idtac ];
    match goal with
    | |- forall this, outcome (read_json_param _ _ _ ?m') this = _ -> _ =>
        exact (read_json_param_overlaid data m')
    end.
Qed.

Lemma read_members_ok (data : json) (this : GenerationConfig) :
  outcome (read_members w data) this = OK tt <-> well_typed w data.
Proof.
  unfold read_members. rewrite !outcome_bind_ok, !read_json_param_ok. split.
  - intros H m j Hm Hj.
    destruct m; try discriminate Hm; cbn in Hj; revert j Hj; apply H.
  - intros H.
    repeat split; intros j Hj;
      match goal with
      | Hj : field_of _ ?name = _ |- is_Some (json_get _ (member_ctype ?m) _) =>
          apply (H m j eq_refl Hj)
      end.
Qed.

Lemma ctor_ok (data : json) (this : GenerationConfig) :
  outcome (GenerationConfig_ctor w data) this = outcome (read_members w data) this.
Proof.
  unfold GenerationConfig_ctor. rewrite outcome_bind.
  destruct (outcome (read_members w data) this) as [[]|e]; [|reflexivity].
  unfold outcome. now rewrite read_early_stopping_run.
Qed.

Lemma ctor_stop_criteria (data : json) (this : GenerationConfig) :
  outcome (GenerationConfig_ctor w data) this = OK tt ->
  stop_criteria (after (GenerationConfig_ctor w data) this) =
  default (stop_criteria this) (field_of data "early_stopping" ≫= early_stopping_encoding).
Proof.
  intros Hok. rewrite ctor_ok in Hok.
  unfold GenerationConfig_ctor. rewrite after_bind, Hok.
  unfold after at 1. rewrite read_early_stopping_run. cbn [fst].
  change (stop_criteria (set m_stop_criteria ?v ?c)) with (get m_stop_criteria (set m_stop_criteria v c)).
  rewrite get_set_same.
  change (stop_criteria ?c) with (get m_stop_criteria c).
  now rewrite (keeps_read_members data m_stop_criteria eq_refl).
Qed.

Lemma read_json_param_insert (o : gmap string json) (k : string) (j : json)
    (name : string) (m : member) :
  k <> name ->
  read_json_param w (Jobject (<[k:=j]> o)) name m = read_json_param w (Jobject o) name m.
Proof.
  intros Hne. unfold read_json_param. cbn [contains at_key].
  now rewrite lookup_insert_ne.
Qed.

Lemma read_early_stopping_insert (o : gmap string json) (k : string) (j : json) :
  k <> "early_stopping" ->
  read_early_stopping (Jobject (<[k:=j]> o)) = read_early_stopping (Jobject o).
Proof.
  intros Hne. unfold read_early_stopping. cbn [contains at_key].
  now rewrite lookup_insert_ne.
Qed.

Lemma ctor_insert_other (o : gmap string json) (k : string) (j : json) :
  ~ In k file_keys ->
  GenerationConfig_ctor w (Jobject (<[k:=j]> o)) = GenerationConfig_ctor w (Jobject o).
Proof.
  intros Hk. unfold GenerationConfig_ctor, read_members.
  rewrite !read_json_param_insert, read_early_stopping_insert;
    try reflexivity; intros ->; apply Hk; cbn; tauto.
Qed.

(** C5. When the document has a field [early_stopping], the load gives
    [stop_criteria] the value [NEVER] for the string ["never"], [EARLY]
    for [true], [HEURISTIC] for [false], and leaves it as it was for
    any other value; reading the field never throws, so the load fails
    or succeeds as the reads of the other members do. *)
Theorem early_stopping_decoding (data j : json) (this : GenerationConfig) :
  field_of data "early_stopping" = Some j ->
  outcome (read_early_stopping data) this = OK tt
  /\ outcome (GenerationConfig_ctor w data) this = outcome (read_members w data) this
  /\ (outcome (GenerationConfig_ctor w data) this = OK tt ->
      stop_criteria (after (GenerationConfig_ctor w data) this) =
      match j with
      | Jstring "never" => NEVER
      | Jboolean true => EARLY
      | Jboolean false => HEURISTIC
      | _ => stop_criteria this
      end).
Proof.
  intros Hj. split; [|split].
  - unfold outcome. now rewrite read_early_stopping_run.
  - apply ctor_ok.
  - intros Hok. rewrite (ctor_stop_criteria _ _ Hok), Hj. cbn.
    destruct j as [ | [] | | | s | | ]; try reflexivity.
    cbn. destruct (decide (s = "never")) as [->|Hs]; [reflexivity|].
    cbn. repeat (destruct s as [|[[] [] [] [] [] [] [] []] s]; try reflexivity).
    congruence.
Qed.

(** C6, as the code has it. The file-backed load looks at the keys of
    every member but [ignore_eos] and [stop_criteria], and at
    [early_stopping]: any other key of the document is ignored, and
    [ignore_eos] is left as it was.  The load succeeds exactly when the
    value of each such key has the shape of its member, and then each
    of these members holds the document's value where the document has
    the key and its previous value where it has not, and
    [stop_criteria] is decoded from [early_stopping]. *)
Theorem file_load_reads_file_keys (data : json) (this : GenerationConfig) :
  (forall o k j, data = Jobject o -> ~ In k file_keys ->
     GenerationConfig_ctor w (Jobject (<[k:=j]> o)) this = GenerationConfig_ctor w data this)
  /\ ignore_eos (after (GenerationConfig_ctor w data) this) = ignore_eos this
  /\ (outcome (GenerationConfig_ctor w data) this = OK tt <-> well_typed w data)
  /\ (outcome (GenerationConfig_ctor w data) this = OK tt ->
      (forall m, file_member m = true ->
         overlaid w data m this (after (GenerationConfig_ctor w data) this))
      /\ stop_criteria (after (GenerationConfig_ctor w data) this) =
         default (stop_criteria this)
           (field_of data "early_stopping" ≫= early_stopping_encoding)).
Proof.
  split; [|split; [|split]].
  - intros o k j -> Hk. now rewrite ctor_insert_other.
  - apply (keeps_bind m_ignore_eos).
    + now apply keeps_read_members.
    + now apply keeps_read_early_stopping.
  - rewrite ctor_ok. apply read_members_ok.
  - intros Hok. split.
    + intros m Hm. revert this Hok. apply overlaid_here.
      * now apply read_members_overlaid.
      * apply keeps_read_early_stopping. now destruct m.
    + now apply ctor_stop_criteria.
Qed.

(** *** The override map *)

Lemma keeps_read_anymap_param_other (config_map : AnyMap) (name : string)
    (m m' : member) :
  m <> m' -> keeps m (read_anymap_param config_map name m').
Proof.
  intros Hne this. unfold after, read_anymap_param.
  destruct (config_map !! name) as [a|]; [|reflexivity].
  destruct (any_as (member_ctype m') a); [|reflexivity].
  apply get_set_other, Hne.
Qed.

Lemma keeps_read_anymap_param_absent (config_map : AnyMap) (name : string)
    (m m' : member) :
  config_map !! name = None -> keeps m (read_anymap_param config_map name m').
Proof.
  intros Habs this. unfold after, read_anymap_param. now rewrite Habs.
Qed.

(** C7. [update_generation_config] leaves every member whose name is
    not a key of the override map as it was, whether the update
    completes or throws on another key. *)
Theorem update_keeps_absent_members (config_map : AnyMap) (m : member)
    (this : GenerationConfig) :
  config_map !! member_name m = None ->
  get m (after (update_generation_config config_map) this) = get m this.
Proof.
  intros Habs. revert this. fold (keeps m (update_generation_config config_map)).
  unfold update_generation_config.
  destruct m; cbn [member_name] in Habs;
    repeat apply keeps_bind;
    first [ apply keeps_read_anymap_param_other; discriminate
          | apply keeps_read_anymap_param_absent; exact Habs ].
Qed.

End Population.

(** ** The properties at the sample inputs *)

Ltac in_range := unfold in_size_t, in_int64; cbv -[Z.le Z.lt]; lia.

Lemma validated_modes_partition_witness :
  validate 64 budget_50 = OK tt
  /\ Z.b2z (is_greedy_decoding budget_50) + Z.b2z (is_beam_search budget_50)
     + Z.b2z (is_multinomial budget_50) = 1.
Proof.
  split; [reflexivity|].
  apply (validated_modes_partition 64 budget_50). reflexivity.
Defined.

Lemma get_max_new_tokens_priority_witness :
  get_max_new_tokens 64 budget_50 10 = 50
  /\ get_max_new_tokens 64 length_100 30 = 70.
Proof.
  split.
  - apply (proj1 (get_max_new_tokens_priority 64 budget_50 10)).
    vm_compute. discriminate.
  - apply (proj2 (proj2 (get_max_new_tokens_priority 64 length_100 30))).
    + reflexivity.
    + in_range.
    + cbn. lia.
Defined.

Lemma validate_checks_rules_in_order_witness :
  wf_config 64 sampling_40
  /\ validate 64 sampling_40 = first_violation 64 sampling_40.
Proof.
  assert (Hwf : wf_config 64 sampling_40)
    by (constructor; first [in_range | reflexivity]).
  split; [exact Hwf|].
  apply (proj1 (validate_checks_rules_in_order 64 sampling_40 Hwf)).
Defined.

Lemma sampling_domains_only_when_sampling_witness :
  do_sample budget_50 = false
  /\ validate 64 greedy_top_p_out_of_range = validate 64 budget_50
  /\ validate 64 greedy_top_p_out_of_range = OK tt.
Proof.
  split; [reflexivity|].
  assert (E : validate 64 greedy_top_p_out_of_range = validate 64 budget_50).
  { apply (proj1 (sampling_domains_only_when_sampling 64 budget_50) eq_refl
             (top_k budget_50) float_one_and_half (temperature budget_50)). }
  split; [exact E|]. rewrite E. reflexivity.
Defined.

Lemma early_stopping_decoding_witness :
  field_of doc_maybe "early_stopping" = Some (Jstring "maybe")
  /\ outcome (GenerationConfig_ctor 64 doc_maybe) (default_config 64) = OK tt
  /\ stop_criteria (after (GenerationConfig_ctor 64 doc_maybe) (default_config 64))
     = stop_criteria (default_config 64).
Proof.
  split; [reflexivity|]. split; [reflexivity|].
  apply (proj2 (proj2 (early_stopping_decoding 64 doc_maybe (Jstring "maybe")
                         (default_config 64) eq_refl))).
  reflexivity.
Defined.

(** A document that names [ignore_eos] loads without error and leaves
    the member at its default. *)
Lemma file_load_skips_ignore_eos :
  field_of doc_ignore_eos "ignore_eos" = Some (Jboolean true)
  /\ outcome (GenerationConfig_ctor 64 doc_ignore_eos) (default_config 64) = OK tt
  /\ ignore_eos (after (GenerationConfig_ctor 64 doc_ignore_eos) (default_config 64)) = false.
Proof. repeat split. Qed.

Lemma file_load_reads_file_keys_witness :
  outcome (GenerationConfig_ctor 64 doc_top_k) (default_config 64) = OK tt
  /\ overlaid 64 doc_top_k m_top_k (default_config 64)
       (after (GenerationConfig_ctor 64 doc_top_k) (default_config 64))
  /\ overlaid 64 doc_top_k m_temperature (default_config 64)
       (after (GenerationConfig_ctor 64 doc_top_k) (default_config 64)).
Proof.
  assert (Hok : outcome (GenerationConfig_ctor 64 doc_top_k) (default_config 64) = OK tt)
    by reflexivity.
  split; [exact Hok|].
  destruct (file_load_reads_file_keys 64 doc_top_k (default_config 64))
    as (_ & _ & _ & H).
  destruct (H Hok) as [Hm _].
  split; apply Hm; reflexivity.
Defined.

Lemma update_keeps_absent_members_witness :
  map_top_k !! member_name m_temperature = None
  /\ temperature (after (update_generation_config map_top_k) (default_config 64))
     = temperature (default_config 64)
  /\ top_k (after (update_generation_config map_top_k) (default_config 64)) = 40.
Proof.
  split; [reflexivity|]. split; [|reflexivity].
  apply (update_keeps_absent_members map_top_k m_temperature (default_config 64)).
  reflexivity.
Defined.

(** With no sampling and a beam width of zero the decoding is greedy. *)
Lemma greedy_with_zero_beams :
  is_greedy_decoding zero_beams = true
  /\ ~ (do_sample zero_beams = false /\ num_beams zero_beams = 1).
Proof.
  split; [reflexivity|]. intros [_ H]. discriminate H.
Qed.

Lemma is_greedy_decoding_iff_witness :
  1 <= num_beams budget_50
  /\ (is_greedy_decoding budget_50 = true <->
      do_sample budget_50 = false /\ num_beams budget_50 = 1).
Proof.
  assert (H1 : 1 <= num_beams budget_50) by (cbn; lia).
  split; [exact H1|].
  apply (proj2 (is_greedy_decoding_iff budget_50) H1).
Defined.

Lemma get_max_new_tokens_wraps_witness :
  max_new_tokens length_100 = SIZE_MAX 64
  /\ max_length length_100 < 130
  /\ get_max_new_tokens 64 length_100 130 = 18446744073709551586.
Proof.
  split; [reflexivity|]. split; [cbn; lia|].
  apply (proj1 (proj2 (get_max_new_tokens_wraps 64 length_100 130 eq_refl
                         ltac:(in_range) ltac:(in_range) ltac:(cbn; lia)))).
Defined.

Lemma validate_ignores_unchecked_members_witness :
  wf_config 64 budget_50
  /\ (forall m, unchecked_member m = false -> get m budget_50 = get m zero_sequences)
  /\ validate 64 zero_sequences = OK tt.
Proof.
  assert (Hwf : wf_config 64 budget_50)
    by (constructor; first [in_range | reflexivity]).
  assert (Hsame : forall m, unchecked_member m = false ->
                            get m budget_50 = get m zero_sequences)
    by (intros m Hm; destruct m; try discriminate Hm; reflexivity).
  split; [exact Hwf|]. split; [exact Hsame|].
  rewrite <- (proj1 (validate_ignores_unchecked_members 64 budget_50 zero_sequences
                       Hwf Hsame)).
  reflexivity.
Defined.

(** ** The scenarios of section 8 *)

Example sampling_with_two_beams_rejected :
  validate 64 (set m_num_beams 2 sampling_40)
  = Throw (AssertFailure beam_sampling_text []).
Proof. reflexivity. Qed.

Example sampling_with_top_p_out_of_range_rejected :
  validate 64 (set m_top_p float_one_and_half sampling_40)
  = Throw (AssertFailure top_p_text [of_float float_one_and_half]).
Proof. reflexivity. Qed.

Example ignore_eos_without_bound_rejected :
  validate 64 (set m_ignore_eos true (default_config 64))
  = Throw (AssertFailure ignore_eos_text []).
Proof. reflexivity. Qed.

Example defaults_have_no_stopping_signal :
  validate 64 (default_config 64) = Throw (AssertFailure eos_token_id_text []).
Proof. reflexivity. Qed.

Example early_stopping_never :
  stop_criteria <$> GenerationConfig_of_json 64 (Jobject {[ "early_stopping" := Jstring "never" ]})
  = OK NEVER.
Proof. reflexivity. Qed.

Example early_stopping_true :
  stop_criteria <$> GenerationConfig_of_json 64 doc_top_k = OK EARLY.
Proof. reflexivity. Qed.

Example early_stopping_number :
  stop_criteria <$> GenerationConfig_of_json 64 (Jobject {[ "early_stopping" := Jinteger 1 ]})
  = OK HEURISTIC.
Proof. reflexivity. Qed.

Example wrong_shape_is_an_error :
  GenerationConfig_of_json 64 (Jobject {[ "top_k" := Jstring "forty" ]})
  = Throw (TypeMismatch "top_k").
Proof. reflexivity. Qed.

(** * Further properties *)

(** ** Modes and validation on arbitrary configurations *)

Section MoreValidation.

Variable w : positive.

(** X1. Whatever the configuration, validated or not, at least one
    mode holds and greedy decoding excludes the other two; beam search
    and multinomial sampling hold together exactly when [do_sample] is
    set with a beam width above 1. *)
Theorem modes_cover_every_configuration (c : GenerationConfig) :
  1 <= Z.b2z (is_greedy_decoding c) + Z.b2z (is_beam_search c)
       + Z.b2z (is_multinomial c) <= 2
  /\ (is_greedy_decoding c = true ->
      is_beam_search c = false /\ is_multinomial c = false)
  /\ (is_beam_search c = true /\ is_multinomial c = true <->
      do_sample c = true /\ 1 < num_beams c).
Proof.
  unfold is_greedy_decoding, is_beam_search, is_multinomial.
  rewrite <- Z.ltb_lt.
  destruct (do_sample c), (1 <? num_beams c); cbn; intuition (lia || congruence).
Qed.

(** X2. [validate] throws the error about beam search with sampling
    exactly when [do_sample] is set and [num_beams] is not 1, whatever
    else is wrong with the configuration; this is the case whenever
    beam search and multinomial sampling hold together. *)
Theorem validate_rejects_sampling_with_beams (c : GenerationConfig) :
  (validate w c = Throw (AssertFailure beam_sampling_text []) <->
   do_sample c = true /\ num_beams c <> 1)
  /\ (is_beam_search c = true -> is_multinomial c = true ->
      validate w c = Throw (AssertFailure beam_sampling_text [])).
Proof.
  assert (Hiff : validate w c = Throw (AssertFailure beam_sampling_text []) <->
                 do_sample c = true /\ num_beams c <> 1).
  { unfold validate. rewrite !assert_then, assert_last.
    rewrite <- Z.eqb_neq.
    destruct (do_sample c), (num_beams c =? 1); cbn [negb orb].
    2: { split; [intros _; now split | reflexivity]. }
    all: split; [|intros [? ?]; congruence].
    all: repeat match goal with
                | |- context [if ?b then _ else _] => destruct b
                end; discriminate. }
  split; [exact Hiff|].
  unfold is_beam_search, is_multinomial. intros Hb Hs.
  apply Hiff. split; [exact Hs|]. apply Z.ltb_lt in Hb. lia.
Qed.

(** X3. An accepted configuration has a positive budget for an empty
    prompt, and for any prompt when [max_new_tokens] is set or the
    prompt is shorter than [max_length]. *)
Theorem validated_budget_is_positive (c : GenerationConfig) (prompt_length : Z) :
  validate w c = OK tt ->
  in_size_t w (max_new_tokens c) -> in_size_t w (max_length c) ->
  prompt_length = 0 \/
    (0 <= prompt_length /\
     (max_new_tokens c <> SIZE_MAX w \/ prompt_length < max_length c)) ->
  0 < get_max_new_tokens w c prompt_length <= SIZE_MAX w.
Proof.
  intros V Hn Hl Hp. apply validate_ok in V. unfold accepted in V.
  rewrite !andb_true_iff in V.
  destruct V as [[[[[[[[_ V2] V3] _] _] _] _] _] _].
  apply Z.ltb_lt in V2.
  unfold get_max_new_tokens, size_sub, in_size_t, SIZE_MAX in *.
  destruct (max_new_tokens c =? 2 ^ Z.pos w - 1) eqn:E; cbn [negb] in *.
  - apply Z.ltb_lt in V3. apply Z.eqb_eq in E.
    rewrite Z.mod_small by lia. lia.
  - lia.
Qed.

(** X4. An accepted configuration has a stopping signal: a token
    budget, a length cap, or an end-of-sequence token that is not
    ignored. *)
Theorem validated_has_stopping_signal (c : GenerationConfig) :
  validate w c = OK tt ->
  max_new_tokens c <> SIZE_MAX w
  \/ max_length c <> SIZE_MAX w
  \/ (eos_token_id c <> -1 /\ ignore_eos c = false).
Proof.
  intros V. apply validate_ok in V. unfold accepted in V.
  rewrite !andb_true_iff in V. destruct V as [[_ V6] V7].
  rewrite <- !Z.eqb_neq.
  destruct (max_new_tokens c =? SIZE_MAX w), (max_length c =? SIZE_MAX w),
    (eos_token_id c =? -1), (ignore_eos c); cbn in *; auto; discriminate.
Qed.

Lemma float_gt_zero (x : float) :
  float_gt x float_zero = true <-> float_positive x.
Proof.
  unfold float_gt, float_zero, SFltb, float_positive.
  destruct x as [[]|[]| |[] m e]; cbn; intuition discriminate.
Qed.

Lemma float_in_unit_interval (x : float) :
  float_gt x float_zero = true -> float_le x float_one = true ->
  float_positive_finite x.
Proof.
  unfold float_gt, float_le, float_zero, float_one, SFltb, SFleb, float_positive_finite.
  destruct x as [[]|[]| |[] m e]; cbn; trivial; discriminate.
Qed.

(** X5. [validate] accepts no NaN, zero or negative
    [repetition_penalty], and when sampling none for [temperature]
    either; an accepted [top_p] of a sampling configuration is a
    positive finite number. *)
Theorem validated_floats_are_positive (c : GenerationConfig) :
  validate w c = OK tt ->
  float_positive (repetition_penalty c)
  /\ (do_sample c = true ->
      float_positive (temperature c) /\ float_positive_finite (top_p c)).
Proof.
  intros V. apply validate_ok in V. unfold accepted in V.
  rewrite !andb_true_iff in V.
  destruct V as [[[[[_ Vp] Vt] Vr] _] _].
  split; [now apply float_gt_zero|].
  intros Hs. rewrite Hs in Vp, Vt. cbn [negb orb] in Vp, Vt.
  apply andb_true_iff in Vp as [Vp1 Vp2].
  split; [now apply float_gt_zero | now apply float_in_unit_interval].
Qed.

(** X6. Once [max_new_tokens] is set, [validate] no longer depends on
    [max_length], [ignore_eos] and [eos_token_id]. *)
Theorem explicit_budget_bypasses_length_checks (c : GenerationConfig) :
  max_new_tokens c <> SIZE_MAX w ->
  forall (l : Z) (b : bool) (e : Z),
    validate w (set m_max_length l (set m_ignore_eos b (set m_eos_token_id e c)))
    = validate w c.
Proof.
  intros Hn l b e. apply Z.eqb_neq in Hn.
  destruct c. cbn in Hn. unfold validate. cbn. rewrite Hn. cbn.
  rewrite !orb_true_r. reflexivity.
Qed.


(** X8. With [max_new_tokens] unset, prompt and budget add up to
    [max_length] modulo [2^w], and exactly so for a prompt that is not
    longer than [max_length]; a prompt of length [max_length] has a
    budget of zero. *)
Theorem prompt_plus_budget_is_max_length (c : GenerationConfig) (prompt_length : Z) :
  max_new_tokens c = SIZE_MAX w ->
  in_size_t w (max_length c) ->
  (prompt_length + get_max_new_tokens w c prompt_length) mod 2 ^ Z.pos w = max_length c
  /\ (0 <= prompt_length <= max_length c ->
      prompt_length + get_max_new_tokens w c prompt_length = max_length c)
  /\ (prompt_length = max_length c -> get_max_new_tokens w c prompt_length = 0).
Proof.
  unfold get_max_new_tokens, size_sub, in_size_t, SIZE_MAX.
  intros Hn Hl. apply Z.eqb_eq in Hn. rewrite Hn. cbn [negb].
  assert (0 < 2 ^ Z.pos w) by (apply Z.pow_pos_nonneg; lia).
  split; [|split].
  - rewrite Zplus_mod_idemp_r.
    replace (prompt_length + (max_length c - prompt_length)) with (max_length c) by lia.
    apply Z.mod_small. lia.
  - intros Hp. rewrite Z.mod_small by lia. lia.
  - intros ->. rewrite Z.sub_diag. apply Z.mod_0_l. lia.
Qed.

End MoreValidation.

(** ** The override map, member by member *)

Lemma config_ext (c1 c2 : GenerationConfig) :
  (forall m, get m c1 = get m c2) -> c1 = c2.
Proof.
  intros H.
  pose proof (H m_max_new_tokens). pose proof (H m_max_length).
  pose proof (H m_ignore_eos). pose proof (H m_num_beam_groups).
  pose proof (H m_num_beams). pose proof (H m_diversity_penalty).
  pose proof (H m_length_penalty). pose proof (H m_num_return_sequences).
  pose proof (H m_no_repeat_ngram_size). pose proof (H m_stop_criteria).
  pose proof (H m_temperature). pose proof (H m_top_p).
  pose proof (H m_top_k). pose proof (H m_do_sample).
  pose proof (H m_repetition_penalty). pose proof (H m_eos_token_id).
  clear H. destruct c1, c2. cbn in *. subst. reflexivity.
Qed.

Lemma validate_agree (w : positive) (c1 c2 : GenerationConfig) :
  (forall m, unchecked_member m = false -> get m c1 = get m c2) ->
  validate w c1 = validate w c2.
Proof.
  intros H.
  pose proof (H m_max_new_tokens eq_refl). pose proof (H m_max_length eq_refl).
  pose proof (H m_ignore_eos eq_refl). pose proof (H m_num_beams eq_refl).
  pose proof (H m_temperature eq_refl). pose proof (H m_top_p eq_refl).
  pose proof (H m_top_k eq_refl). pose proof (H m_do_sample eq_refl).
  pose proof (H m_repetition_penalty eq_refl). pose proof (H m_eos_token_id eq_refl).
  clear H. destruct c1, c2. cbn in *. subst. reflexivity.
Qed.

Lemma all_members_complete (m : member) : m ∈ all_members.
Proof. destruct m; unfold all_members; set_solver. Qed.

Lemma bind_cong_r (f g g' : method unit) :
  (forall c, g c = g' c) -> forall this, (f ;; g) this = (f ;; g') this.
Proof.
  intros H this. unfold mbind, method_bind.
  destruct (f this) as [c [[]|e]]; [apply H | reflexivity].
Qed.

Lemma bind_ret_r (f : method unit) (this : GenerationConfig) :
  f this = (f ;; mret tt) this.
Proof.
  unfold mbind, method_bind. destruct (f this) as [c [[]|e]]; reflexivity.
Qed.

Section OverrideMap.

Variable config_map : AnyMap.

(** The sixteen reads are the reads of the members in their order. *)
Lemma update_in_turn (this : GenerationConfig) :
  update_generation_config config_map this = read_in_turn config_map all_members this.
Proof.
  unfold update_generation_config, all_members. cbn [read_in_turn member_name].
  revert this.
  repeat (apply bind_cong_r; intros ?).
  apply bind_ret_r.
Qed.

Lemma read_outcome (m : member) (this : GenerationConfig) :
  outcome (read_anymap_param config_map (member_name m) m) this =
  if ill_typed config_map m then Throw (TypeMismatch (member_name m)) else OK tt.
Proof.
  unfold outcome, read_anymap_param, ill_typed.
  destruct (config_map !! member_name m) as [a|]; [|reflexivity].
  destruct (any_as (member_ctype m) a); reflexivity.
Qed.

Lemma read_after (m : member) (this : GenerationConfig) :
  after (read_anymap_param config_map (member_name m) m) this =
  match override_value config_map m with
  | Some v => set m v this
  | None => this
  end.
Proof.
  unfold after, read_anymap_param, override_value.
  destruct (config_map !! member_name m) as [a|]; [|reflexivity].
  cbn. destruct (any_as (member_ctype m) a); reflexivity.
Qed.

Lemma ill_typed_no_value (m : member) :
  ill_typed config_map m = true -> override_value config_map m = None.
Proof.
  unfold ill_typed, override_value.
  destruct (config_map !! member_name m) as [a|]; [|discriminate].
  cbn. destruct (any_as (member_ctype m) a); [discriminate | reflexivity].
Qed.

Lemma read_in_turn_outcome (ms : list member) (this : GenerationConfig) :
  outcome (read_in_turn config_map ms) this =
  match List.find (ill_typed config_map) ms with
  | Some m => Throw (TypeMismatch (member_name m))
  | None => OK tt
  end.
Proof.
  revert this. induction ms as [|m0 ms IH]; intros this; [reflexivity|].
  cbn [read_in_turn List.find]. rewrite outcome_bind, read_outcome.
  destruct (ill_typed config_map m0); [reflexivity | apply IH].
Qed.

Lemma read_in_turn_member (ms : list member) (m : member) (this : GenerationConfig) :
  get m (after (read_in_turn config_map ms) this) =
  if decide (m ∈ read_before_throw config_map ms)
  then default (get m this) (override_value config_map m)
  else get m this.
Proof.
  revert this. induction ms as [|m0 ms IH]; intros this.
  - cbn. now rewrite decide_False by apply not_elem_of_nil.
  - cbn [read_in_turn read_before_throw]. rewrite after_bind, read_outcome.
    destruct (ill_typed config_map m0) eqn:Ill.
    + rewrite read_after, (ill_typed_no_value _ Ill).
      now rewrite decide_False by apply not_elem_of_nil.
    + rewrite IH, read_after.
      destruct (decide (m = m0)) as [->|Hne].
      * rewrite (decide_True (P := m0 ∈ m0 :: _)) by (apply elem_of_cons; auto).
        destruct (override_value config_map m0) as [v|]; cbn.
        -- rewrite get_set_same.
           now destruct (decide (m0 ∈ read_before_throw config_map ms)).
        -- now destruct (decide (m0 ∈ read_before_throw config_map ms)).
      * assert (Hget : get m (match override_value config_map m0 with
                               | Some v => set m0 v this
                               | None => this
                               end) = get m this).
        { destruct (override_value config_map m0); [|reflexivity].
          now apply get_set_other. }
        rewrite Hget.
        destruct (decide (m ∈ read_before_throw config_map ms)) as [Hin|Hnin].
        -- rewrite decide_True by (apply elem_of_cons; auto). reflexivity.
        -- rewrite decide_False; [reflexivity|].
           intros [?|?]%elem_of_cons; contradiction.
Qed.

Lemma read_before_throw_all (ms : list member) :
  (forall m, ill_typed config_map m = false) ->
  read_before_throw config_map ms = ms.
Proof.
  intros H. induction ms as [|m0 ms IH]; [reflexivity|].
  cbn. now rewrite H, IH.
Qed.

Lemma read_before_throw_prefix (pre post : list member) (bad : member) :
  (forall m, In m pre -> ill_typed config_map m = false) ->
  ill_typed config_map bad = true ->
  read_before_throw config_map (pre ++ bad :: post) = pre
  /\ List.find (ill_typed config_map) (pre ++ bad :: post) = Some bad.
Proof.
  intros Hpre Hbad. induction pre as [|m0 pre IH]; cbn.
  - now rewrite Hbad.
  - rewrite (Hpre m0) by now left.
    destruct IH as [-> ->]; [|easy]. intros m Hm. apply Hpre. now right.
Qed.

Lemma update_outcome (this : GenerationConfig) :
  outcome (update_generation_config config_map) this =
  match List.find (ill_typed config_map) all_members with
  | Some m => Throw (TypeMismatch (member_name m))
  | None => OK tt
  end.
Proof.
  unfold outcome. rewrite update_in_turn. apply read_in_turn_outcome.
Qed.

Lemma update_member (m : member) (this : GenerationConfig) :
  get m (after (update_generation_config config_map) this) =
  if decide (m ∈ read_before_throw config_map all_members)
  then default (get m this) (override_value config_map m)
  else get m this.
Proof.
  unfold after. rewrite update_in_turn. apply read_in_turn_member.
Qed.

End OverrideMap.

Section OverrideProperties.

Variable config_map : AnyMap.

(** X9. [update_generation_config] completes exactly when no member's
    key holds a value of another type, and then every member holds the
    map's value for its own key where the map has the key, and its
    previous value where it has not. *)
Theorem update_overlays_named_members (this : GenerationConfig) :
  (outcome (update_generation_config config_map) this = OK tt <->
   forall m, ill_typed config_map m = false)
  /\ (outcome (update_generation_config config_map) this = OK tt ->
      forall m, get m (after (update_generation_config config_map) this)
                = default (get m this) (override_value config_map m)).
Proof.
  assert (Hok : outcome (update_generation_config config_map) this = OK tt <->
                forall m, ill_typed config_map m = false).
  { rewrite update_outcome.
    destruct (List.find _ _) as [bad|] eqn:F; split.
    - discriminate.
    - intros H. apply List.find_some in F as [_ Hb]. rewrite H in Hb. discriminate.
    - intros _ m. apply (List.find_none _ _ F).
      apply list_elem_of_In, all_members_complete.
    - reflexivity. }
  split; [exact Hok|].
  intros H m. rewrite update_member, read_before_throw_all by now apply Hok.
  now rewrite decide_True by apply all_members_complete.
Qed.

(** X10. When [update_generation_config] throws, it names the first
    member, in the order of the sixteen reads, whose key holds a value
    of another type; the members read before it already hold the
    map's values, and all others are as they were. *)
Theorem update_throws_at_first_ill_typed (this : GenerationConfig)
    (pre post : list member) (bad : member) :
  all_members = (pre ++ bad :: post)%list ->
  (forall m, In m pre -> ill_typed config_map m = false) ->
  ill_typed config_map bad = true ->
  outcome (update_generation_config config_map) this
  = Throw (TypeMismatch (member_name bad))
  /\ (forall m, In m pre ->
        get m (after (update_generation_config config_map) this)
        = default (get m this) (override_value config_map m))
  /\ (forall m, ~ In m pre ->
        get m (after (update_generation_config config_map) this) = get m this).
Proof.
  intros Hall Hpre Hbad.
  destruct (read_before_throw_prefix config_map pre post bad Hpre Hbad) as [Hb Hf].
  rewrite <- Hall in Hb, Hf.
  split; [|split].
  - now rewrite update_outcome, Hf.
  - intros m Hm. rewrite update_member, Hb.
    now rewrite decide_True by now apply list_elem_of_In.
  - intros m Hm. rewrite update_member, Hb.
    now rewrite decide_False by now rewrite list_elem_of_In.
Qed.

(** X11. Applying the same override map a second time changes nothing
    and has the same outcome as the first time. *)
Theorem update_twice (this : GenerationConfig) :
  update_generation_config config_map
    (after (update_generation_config config_map) this)
  = (after (update_generation_config config_map) this,
     outcome (update_generation_config config_map) this).
Proof.
  set (this' := after (update_generation_config config_map) this).
  rewrite (surjective_pairing (update_generation_config config_map this')).
  f_equal.
  - apply config_ext. intros m.
    change (fst (update_generation_config config_map this'))
      with (after (update_generation_config config_map) this').
    unfold this'. rewrite !update_member.
    destruct (decide _); [|reflexivity].
    now destruct (override_value config_map m).
  - change (snd (update_generation_config config_map this'))
      with (outcome (update_generation_config config_map) this').
    now rewrite !update_outcome.
Qed.

Lemma read_anymap_param_insert (k : string) (a : Any) (name : string) (m : member) :
  k <> name ->
  read_anymap_param (<[k:=a]> config_map) name m = read_anymap_param config_map name m.
Proof.
  intros Hne. unfold read_anymap_param. now rewrite lookup_insert_ne.
Qed.

(** X12. A key that is not the name of a member is ignored: adding it
    to the map, with any value, does not change what
    [update_generation_config] does. *)
Theorem update_ignores_other_keys (k : string) (a : Any) :
  ~ In k (map member_name all_members) ->
  update_generation_config (<[k:=a]> config_map) = update_generation_config config_map.
Proof.
  intros Hk. unfold update_generation_config.
  rewrite !read_anymap_param_insert; try reflexivity;
    intros ->; apply Hk; cbn; tauto.
Qed.



(** X14. An override map that names no member [validate] reads leaves
    the outcome of [validate] as it was. *)
Theorem update_of_unchecked_members_keeps_validity (w : positive)
    (this : GenerationConfig) :
  (forall m, unchecked_member m = false -> config_map !! member_name m = None) ->
  validate w (after (update_generation_config config_map) this) = validate w this.
Proof.
  intros H. apply validate_agree. intros m Hm.
  rewrite update_member. unfold override_value. rewrite (H m Hm).
  now destruct (decide _).
Qed.

End OverrideProperties.

(** ** The further properties at the sample inputs *)

Lemma modes_cover_every_configuration_witness :
  do_sample sampling_two_beams = true /\ 1 < num_beams sampling_two_beams
  /\ is_beam_search sampling_two_beams = true
  /\ is_multinomial sampling_two_beams = true.
Proof.
  assert (H : do_sample sampling_two_beams = true /\ 1 < num_beams sampling_two_beams)
    by (split; [reflexivity | cbn; lia]).
  split; [apply H|]. split; [apply H|].
  apply (proj2 (proj2 (proj2 (modes_cover_every_configuration sampling_two_beams))) H).
Defined.

Lemma validate_rejects_sampling_with_beams_witness :
  is_beam_search sampling_two_beams = true
  /\ is_multinomial sampling_two_beams = true
  /\ validate 64 sampling_two_beams = Throw (AssertFailure beam_sampling_text []).
Proof.
  split; [reflexivity|]. split; [reflexivity|].
  apply (proj2 (validate_rejects_sampling_with_beams 64 sampling_two_beams)
           eq_refl eq_refl).
Defined.

Lemma validated_budget_is_positive_witness :
  validate 64 budget_50 = OK tt
  /\ 0 < get_max_new_tokens 64 budget_50 10 <= SIZE_MAX 64.
Proof.
  split; [reflexivity|].
  apply (validated_budget_is_positive 64 budget_50 10 eq_refl).
  - in_range.
  - in_range.
  - right. split; [lia|]. left. vm_compute. discriminate.
Defined.

Lemma validated_has_stopping_signal_witness :
  validate 64 budget_50 = OK tt
  /\ (max_new_tokens budget_50 <> SIZE_MAX 64
      \/ max_length budget_50 <> SIZE_MAX 64
      \/ (eos_token_id budget_50 <> -1 /\ ignore_eos budget_50 = false)).
Proof.
  split; [reflexivity|].
  apply (validated_has_stopping_signal 64 budget_50). reflexivity.
Defined.

Lemma validated_floats_are_positive_witness :
  validate 64 sampling_40 = OK tt
  /\ float_positive (repetition_penalty sampling_40)
  /\ (do_sample sampling_40 = true ->
      float_positive (temperature sampling_40)
      /\ float_positive_finite (top_p sampling_40)).
Proof.
  split; [reflexivity|].
  apply (validated_floats_are_positive 64 sampling_40). reflexivity.
Defined.

Lemma explicit_budget_bypasses_length_checks_witness :
  max_new_tokens budget_50 <> SIZE_MAX 64
  /\ validate 64 (set m_max_length 0 (set m_ignore_eos true
                   (set m_eos_token_id (-1) budget_50)))
     = validate 64 budget_50.
Proof.
  assert (H : max_new_tokens budget_50 <> SIZE_MAX 64) by (vm_compute; discriminate).
  split; [exact H|].
  apply (explicit_budget_bypasses_length_checks 64 budget_50 H).
Defined.


Lemma prompt_plus_budget_is_max_length_witness :
  max_new_tokens length_100 = SIZE_MAX 64
  /\ 30 + get_max_new_tokens 64 length_100 30 = max_length length_100.
Proof.
  split; [reflexivity|].
  apply (proj1 (proj2 (prompt_plus_budget_is_max_length 64 length_100 30 eq_refl
                         ltac:(in_range)))).
  cbn. lia.
Defined.

Lemma update_overlays_named_members_witness :
  outcome (update_generation_config map_top_k) (default_config 64) = OK tt
  /\ get m_top_k (after (update_generation_config map_top_k) (default_config 64))
     = default (get m_top_k (default_config 64)) (override_value map_top_k m_top_k).
Proof.
  assert (Hok : outcome (update_generation_config map_top_k) (default_config 64) = OK tt)
    by reflexivity.
  split; [exact Hok|].
  apply (proj2 (update_overlays_named_members map_top_k (default_config 64)) Hok).
Defined.

Lemma update_throws_at_first_ill_typed_witness :
  ill_typed map_bad_top_p m_top_p = true
  /\ outcome (update_generation_config map_bad_top_p) (default_config 64)
     = Throw (TypeMismatch "top_p")
  /\ get m_max_new_tokens (after (update_generation_config map_bad_top_p) (default_config 64))
     = default (get m_max_new_tokens (default_config 64))
         (override_value map_bad_top_p m_max_new_tokens)
  /\ get m_top_k (after (update_generation_config map_bad_top_p) (default_config 64))
     = get m_top_k (default_config 64).
Proof.
  split; [reflexivity|].
  destruct (update_throws_at_first_ill_typed map_bad_top_p (default_config 64)
              [m_max_new_tokens; m_max_length; m_ignore_eos; m_num_beam_groups;
               m_num_beams; m_diversity_penalty; m_length_penalty;
               m_num_return_sequences; m_no_repeat_ngram_size; m_stop_criteria;
               m_temperature]
              [m_top_k; m_do_sample; m_repetition_penalty; m_eos_token_id]
              m_top_p eq_refl)
    as (Hthrow & Hpre & Hrest).
  - intros m Hm. cbn in Hm.
    repeat (destruct Hm as [<-|Hm]; [reflexivity|]). contradiction.
  - reflexivity.
  - split; [exact Hthrow|]. split.
    + apply Hpre. cbn. tauto.
    + apply Hrest. cbn. intros Hm.
      repeat (destruct Hm as [Hm|Hm]; [discriminate Hm|]). exact Hm.
Defined.

Lemma update_ignores_other_keys_witness :
  ~ In "early_stopping" (map member_name all_members)
  /\ update_generation_config (<[ "early_stopping" := any_bool true ]> map_top_k)
     = update_generation_config map_top_k.
Proof.
  assert (H : ~ In "early_stopping" (map member_name all_members)).
  { cbn. intros Hin.
    repeat (destruct Hin as [Hin|Hin]; [discriminate Hin|]). exact Hin. }
  split; [exact H|].
  apply (update_ignores_other_keys map_top_k "early_stopping" (any_bool true) H).
Defined.


Lemma update_of_unchecked_members_keeps_validity_witness :
  (forall m, unchecked_member m = false -> map_beam_groups !! member_name m = None)
  /\ validate 64 (after (update_generation_config map_beam_groups) budget_50)
     = validate 64 budget_50.
Proof.
  assert (H : forall m, unchecked_member m = false ->
                        map_beam_groups !! member_name m = None)
    by (intros m Hm; destruct m; try discriminate Hm; reflexivity).
  split; [exact H|].
  apply (update_of_unchecked_members_keeps_validity map_beam_groups 64 budget_50 H).
Defined.
